(** * Telisaran reckoning

    A shallow embedding of [reckoning/telisaran.py]: the date components
    (Minute, Hour, Day, Span, Season, FestivalOfTheHunt, Year, Era), the
    [datetime] constructor, and the two conversions [as_seconds] and
    [from_seconds], followed by the properties of the calendar that the
    specification states about them.

    Python integers are unbounded, so every ordinal and every offset is a
    [Z].  A constructor that may raise returns a [result]. *)

From Stdlib Require Import ZArith List Bool String Lia.
From Stdlib Require Import DecimalString.
Import ListNotations.
Local Open Scope Z_scope.

(** ** Exceptions and results *)

(** The exception classes of the module that the constructors raise, and
    Python's own [TypeError]. *)
Inductive exn : Type :=
| InvalidEraError
| InvalidYearError
| InvalidSeasonError
| InvalidDayError
| InvalidHourError
| InvalidDateError
| TypeError.

Inductive result (A : Type) : Type :=
| Ok (a : A)
| Raise (e : exn).

Arguments Ok {A} a.
Arguments Raise {A} e.

Definition bind {A B : Type} (r : result A) (k : A -> result B) : result B :=
  match r with
  | Ok a => k a
  | Raise e => Raise e
  end.

Notation "x <- r ;; k" := (bind r (fun x => k))
  (at level 61, r at next level, right associativity).

(** [[f(i) for i in xs]] where [f] may raise: the first exception wins. *)
Fixpoint mapM {A B : Type} (f : A -> result B) (xs : list A) : result (list B) :=
  match xs with
  | [] => Ok []
  | x :: xs' => y <- f x ;; ys <- mapM f xs' ;; Ok (y :: ys)
  end.

(** ** Python primitives *)

(** [range(lo, hi)]. *)
Definition py_range (lo hi : Z) : list Z :=
  map (fun i => lo + Z.of_nat i) (seq 0 (Z.to_nat (hi - lo))).

(** [int(a / b)]: true division followed by truncation towards zero.
    While [|a| + b] stays below 2^53, as it does on every offset of the
    four eras (less than 2^41), the floating quotient truncates to the
    exact integer quotient, which is [Z.quot]. *)
Definition int_truediv (a b : Z) : Z := Z.quot a b.

(** [sum(xs)]: a left fold from 0. *)
Definition py_sum (xs : list Z) : Z := fold_left Z.add xs 0.

Definition len {A : Type} (xs : list A) : Z := Z.of_nat (List.length xs).

(** ** Class attributes *)

Definition Minute_length_in_seconds : Z := 60.

Definition Hour_length_in_seconds : Z := 60 * Minute_length_in_seconds.

Definition Day_length_in_seconds : Z := 24 * Hour_length_in_seconds.

Definition Day_names : list string :=
  ["Syfdag"; "Mimdag"; "Wodag"; "Thordag"; "Freydag"]%string.

Definition Span_length_in_days : Z := len Day_names.

Definition Span_length_in_seconds : Z := Span_length_in_days * Day_length_in_seconds.

Definition Season_names : list string :=
  ["Fox"; "Owl"; "Wolf"; "Eagle"; "Shark"; "Lion"; "Raven"; "Bear"]%string.

Definition Season_length_in_spans : Z := 9.

Definition Season_length_in_days : Z := Season_length_in_spans * Span_length_in_days.

Definition Season_length_in_seconds : Z := Season_length_in_days * Day_length_in_seconds.

Definition FestivalOfTheHunt_length_in_spans : Z := 1.

Definition FestivalOfTheHunt_length_in_days : Z := 5.

Definition FestivalOfTheHunt_length_in_seconds : Z :=
  FestivalOfTheHunt_length_in_days * Day_length_in_seconds.

Definition Year_length_in_seasons : Z := len Season_names.

Definition Year_length_in_spans : Z :=
  (Year_length_in_seasons * Season_length_in_spans) + 1.

Definition Year_length_in_days : Z := Year_length_in_spans * Span_length_in_days.

Definition Year_length_in_seconds : Z := Year_length_in_days * Day_length_in_seconds.

Definition Era_long_names : list string :=
  ["Ancient Era"; "Old Era"; "Modern Era"]%string.

Definition Era_length_in_seconds : Z := 10000 * Year_length_in_seconds.

(** ** Objects *)

Record Minute : Type := mkMinute { Minute_minute : Z }.

Record Hour : Type := mkHour { Hour_hour : Z }.

(** [Season] and its subclass [FestivalOfTheHunt] share their instance
    attributes; the class of the object decides the class attributes that a
    lookup through [self] finds. *)
Inductive season_class : Type :=
| SeasonClass
| FestivalOfTheHuntClass.

(** The [year] attribute is the ordinal of the year the season falls in.
    The [_days] cache, empty after construction, is threaded through
    [Season_days] below. *)
Record Season : Type := mkSeason {
  Season_class : season_class;
  Season_season_of_year : Z;
  Season_year : Z
}.

Record Day : Type := mkDay {
  Day_day_of_season : Z;
  Day_season : option Season
}.

Record Era : Type := mkEra {
  Era_era : Z;
  Era_end : option Z
}.

Record Year : Type := mkYear {
  Year_era : Era;
  Year_year : Z;
  Year_seasons : list Season
}.

Record datetime : Type := mkDatetime {
  datetime_era : Era;
  datetime_year : Year;
  datetime_season : Season;
  datetime_day : Day;
  datetime_hour : Hour;
  datetime_minute : Minute;
  datetime_second : Z
}.

(** ** Constructors *)

(** [Minute.__init__]; the exception raised is [InvalidHourError], as in
    the source. *)
Definition Minute_init (minute : Z) : result Minute :=
  if (minute <? 0) || (minute >? 59) then Raise InvalidHourError
  else Ok (mkMinute minute).

(** [Hour.__init__]. *)
Definition Hour_init (hour : Z) : result Hour :=
  if (hour <? 0) || (hour >? 23) then Raise InvalidHourError
  else Ok (mkHour hour).

(** [FestivalOfTheHunt.__init__]. *)
Definition FestivalOfTheHunt_init (year : Z) : Season :=
  mkSeason FestivalOfTheHuntClass 9 year.

(** [Season.__init__].  In the first branch the initialiser returns the
    festival it has just built; an [__init__] that returns anything but
    [None] makes the construction raise [TypeError]. *)
Definition Season_init (season_of_year year : Z) : result Season :=
  if season_of_year =? len Season_names + 1 then
    let _festival := FestivalOfTheHunt_init year in
    Raise TypeError
  else if (season_of_year <? 1) || (season_of_year >? len Season_names) then
    Raise InvalidSeasonError
  else Ok (mkSeason SeasonClass season_of_year year).

(** [Day.__init__]. *)
Definition Day_init (day_of_season : Z) (season : option Season) : result Day :=
  if (day_of_season <? 1) || (day_of_season >? Season_length_in_days) then
    Raise InvalidDayError
  else Ok (mkDay day_of_season season).

(** [Era.__init__]. *)
Definition Era_init (era : Z) (end_ : option Z) : result Era :=
  if (era <? 1) || (era >? len Era_long_names + 1) then Raise InvalidEraError
  else Ok (mkEra era end_).

(** Truthiness of [era.end]: [None] and [0] are false. *)
Definition truthy (o : option Z) : bool :=
  match o with
  | None => false
  | Some n => negb (n =? 0)
  end.

Definition gt_end (year : Z) (o : option Z) : bool :=
  match o with
  | None => false
  | Some n => year >? n
  end.

(** [Year.__init__]; the seasons hold the year's ordinal as their back
    reference. *)
Definition Year_init (year : Z) (era : Era) : result Year :=
  if year <? 1 then Raise InvalidYearError
  else if truthy (Era_end era) && gt_end year (Era_end era) then Raise InvalidYearError
  else
    seasons <- mapM (fun i => Season_init i year)
                    (py_range 1 (Year_length_in_seasons + 1)) ;;
    Ok (mkYear era year (seasons ++ [FestivalOfTheHunt_init year])).

(** [datetime.__init__]. *)
Definition datetime_init (era year season day hour minute second : Z)
  : result datetime :=
  self_era <- Era_init era None ;;
  self_year <- Year_init year self_era ;;
  self_season <-
    (if season =? Year_length_in_seasons + 1
     then Ok (FestivalOfTheHunt_init year)
     else Season_init season (Year_year self_year)) ;;
  self_day <- Day_init day (Some self_season) ;;
  self_hour <- Hour_init hour ;;
  self_minute <- Minute_init hour ;;
  if (second <? 0) || (second >? 59) then Raise InvalidDateError
  else Ok (mkDatetime self_era self_year self_season self_day
                      self_hour self_minute second).

(** [Season.days]: [cache] is the [_days] attribute on entry; the list
    returned is also the value of [_days] on exit. *)
Definition Season_days (self : Season) (cache : list Day) : result (list Day) :=
  match cache with
  | [] => mapM (fun i => Day_init i (Some self))
               (py_range 1 (Season_length_in_days + 1))
  | _ :: _ => Ok cache
  end.

(** ** The DateObject interface *)

(** What every date component offers: its [number], its value
    [as_seconds], and its conversion [__int__]. *)
Class DateObject (A : Type) : Type := {
  number : A -> Z;
  as_seconds : A -> Z;
  to_int : A -> Z
}.

(** [DateObject.as_seconds], for the classes that inherit it. *)
Definition DateObject_as_seconds (number length_in_seconds : Z) : Z :=
  (number - 1) * length_in_seconds.

(** [self.length_in_seconds] on a season: the attribute of the object's
    own class. *)
Definition Season_self_length_in_seconds (self : Season) : Z :=
  match Season_class self with
  | SeasonClass => Season_length_in_seconds
  | FestivalOfTheHuntClass => FestivalOfTheHunt_length_in_seconds
  end.

(** [self.length_in_days] on a season. *)
Definition Season_self_length_in_days (self : Season) : Z :=
  match Season_class self with
  | SeasonClass => Season_length_in_days
  | FestivalOfTheHuntClass => FestivalOfTheHunt_length_in_days
  end.

#[export] Instance Minute_DateObject : DateObject Minute := {
  number self := Minute_minute self;
  as_seconds self := Minute_minute self * Minute_length_in_seconds;
  to_int self := Minute_minute self * Minute_length_in_seconds
}.

#[export] Instance Hour_DateObject : DateObject Hour := {
  number self := Hour_hour self;
  as_seconds self := Hour_hour self * Hour_length_in_seconds;
  to_int self := Hour_hour self * Hour_length_in_seconds
}.

#[export] Instance Day_DateObject : DateObject Day := {
  number self := Day_day_of_season self;
  as_seconds self :=
    DateObject_as_seconds (Day_day_of_season self) Day_length_in_seconds;
  to_int self :=
    DateObject_as_seconds (Day_day_of_season self) Day_length_in_seconds
}.

(** [Season] overrides [__int__] and inherits [as_seconds]; both read
    [self.length_in_seconds]. *)
#[export] Instance Season_DateObject : DateObject Season := {
  number self := Season_season_of_year self;
  as_seconds self :=
    DateObject_as_seconds (Season_season_of_year self)
                          (Season_self_length_in_seconds self);
  to_int self :=
    (Season_season_of_year self - 1) * Season_self_length_in_seconds self
}.

#[export] Instance Year_DateObject : DateObject Year := {
  number self := Year_year self;
  as_seconds self :=
    DateObject_as_seconds (Year_year self) Year_length_in_seconds;
  to_int self :=
    DateObject_as_seconds (Year_year self) Year_length_in_seconds
}.

#[export] Instance Era_DateObject : DateObject Era := {
  number self := Era_era self;
  as_seconds self :=
    DateObject_as_seconds (Era_era self) Era_length_in_seconds;
  to_int self :=
    DateObject_as_seconds (Era_era self) Era_length_in_seconds
}.

(** [datetime.as_seconds]. *)
Definition datetime_as_seconds (self : datetime) : Z :=
  py_sum [ to_int (datetime_era self);
           to_int (datetime_year self);
           to_int (datetime_season self);
           to_int (datetime_day self) ].

#[export] Instance datetime_DateObject : DateObject datetime := {
  number self := datetime_as_seconds self;
  as_seconds self := datetime_as_seconds self;
  to_int self := datetime_as_seconds self
}.

(** [datetime.from_seconds]. *)
Definition from_seconds (seconds : Z) : result datetime :=
  let era := int_truediv seconds Era_length_in_seconds in
  let e_sec := era * Era_length_in_seconds in
  let year := int_truediv (seconds - e_sec) Year_length_in_seconds in
  let y_sec := year * Year_length_in_seconds in
  let season := int_truediv (seconds - e_sec - y_sec) Season_length_in_seconds in
  let s_sec := season * Season_length_in_seconds in
  let day := int_truediv (seconds - e_sec - y_sec - s_sec) Day_length_in_seconds in
  let d_sec := day * Day_length_in_seconds in
  let hour :=
    int_truediv (seconds - e_sec - y_sec - s_sec - d_sec) Hour_length_in_seconds in
  let h_sec := hour * Hour_length_in_seconds in
  let minute :=
    int_truediv (seconds - e_sec - y_sec - s_sec - d_sec - h_sec)
                Minute_length_in_seconds in
  let m_sec := minute * Minute_length_in_seconds in
  let seconds := seconds - e_sec - y_sec - s_sec - d_sec - h_sec - m_sec in
  datetime_init (era + 1) (year + 1) (season + 1) (day + 1) hour minute seconds.

(** The seven components of a date, in calendar order. *)
Definition components (d : datetime) : list Z :=
  [ number (datetime_era d); number (datetime_year d);
    number (datetime_season d); number (datetime_day d);
    number (datetime_hour d); number (datetime_minute d);
    datetime_second d ].

(** Lexicographic comparison of component lists, the calendar order. *)
Fixpoint lex_le (xs ys : list Z) : bool :=
  match xs, ys with
  | [], _ => true
  | _ :: _, [] => false
  | x :: xs', y :: ys' => (x <? y) || ((x =? y) && lex_le xs' ys')
  end.

(** The sum of the seven per-level offsets of a date. *)
Definition sum_of_offsets (d : datetime) : Z :=
  to_int (datetime_era d) + to_int (datetime_year d)
  + to_int (datetime_season d) + to_int (datetime_day d)
  + to_int (datetime_hour d) + to_int (datetime_minute d)
  + datetime_second d.

(** ** The season step of the decomposition *)

(** The season step as [from_seconds] performs it on the remainder within
    the year: the 0-based season index and the 0-based day index. *)
Definition season_step (remaining : Z) : Z * Z :=
  let season := int_truediv remaining Season_length_in_seconds in
  let s_sec := season * Season_length_in_seconds in
  let day := int_truediv (remaining - s_sec) Day_length_in_seconds in
  (season, day).

(** The specification's alternative, written from its words: the year's
    sequence of (length, cumulative offset) pairs, one per season in
    order ... *)
Fixpoint season_table_from (offset : Z) (seasons : list Season) : list (Z * Z) :=
  match seasons with
  | [] => []
  | s :: rest =>
      (Season_self_length_in_seconds s, offset)
        :: season_table_from (offset + Season_self_length_in_seconds s) rest
  end.

Definition season_table (y : Year) : list (Z * Z) :=
  season_table_from 0 (Year_seasons y).

(** ... and the walk that finds the pair whose range contains
    [remaining], giving its 0-based position and its offset. *)
Fixpoint walk_from (index : Z) (table : list (Z * Z)) (remaining : Z)
  : option (Z * Z) :=
  match table with
  | [] => None
  | (length, offset) :: rest =>
      if (offset <=? remaining) && (remaining <? offset + length)
      then Some (index, offset)
      else walk_from (index + 1) rest remaining
  end.

Definition season_step_walk (y : Year) (remaining : Z) : option (Z * Z) :=
  match walk_from 0 (season_table y) remaining with
  | None => None
  | Some (index, offset) =>
      Some (index, int_truediv (remaining - offset) Day_length_in_seconds)
  end.

(** A 0-based day index is in range for the season at a 0-based position
    of the year when the season exists and has that many days. *)
Definition day_in_range (y : Year) (season day : Z) : Prop :=
  exists s, nth_error (Year_seasons y) (Z.to_nat season) = Some s
            /\ 0 <= season
            /\ 0 <= day < Season_self_length_in_days s.

(** ** Names, comparison and arithmetic of the components *)

(** What the methods outside the constructors may raise: an exception of
    a constructor they call, the module's [MissingSeasonError], and
    Python's [AttributeError] and [IndexError]. *)
Inductive py_exn : Type :=
| FromConstructor (e : exn)
| MissingSeasonError
| AttributeError
| IndexError.

Inductive outcome (A : Type) : Type :=
| Return (a : A)
| Throw (e : py_exn).

Arguments Return {A} a.
Arguments Throw {A} e.

Definition lift {A : Type} (r : result A) : outcome A :=
  match r with
  | Ok a => Return a
  | Raise e => Throw (FromConstructor e)
  end.

(** [xs[i]]: a negative index counts from the end; outside the list it is
    an [IndexError]. *)
Definition py_index {A : Type} (xs : list A) (i : Z) : outcome A :=
  let j := if i <? 0 then i + len xs else i in
  if j <? 0 then Throw IndexError
  else match nth_error xs (Z.to_nat j) with
       | Some x => Return x
       | None => Throw IndexError
       end.

(** [str(n)] of an integer. *)
Definition str (n : Z) : string := NilZero.string_of_int (Z.to_int n).

(** [k in d] and [d[k]] on a dict with string keys. *)
Fixpoint dict_get (k : string) (d : list (string * string)) : option string :=
  match d with
  | [] => None
  | (k', v) :: rest => if String.eqb k k' then Some v else dict_get k rest
  end.

(** [_suffix]. *)
Definition _suffix (n : Z) : string :=
  if n =? 1 then "st"
  else if n =? 2 then "nd"
  else if n =? 3 then "rd"
  else "th".

(** [DateObject.__str__]. *)
Definition DateObject_str {A : Type} `{DateObject A} (self : A) : string :=
  str (number self).

(** [DateObject.__eq__] and [DateObject.__ne__]. *)
Definition DateObject_eq {A B : Type} `{DateObject A} `{DateObject B}
           (self : A) (other : B) : bool :=
  to_int self =? to_int other.

Definition DateObject_ne {A B : Type} `{DateObject A} `{DateObject B}
           (self : A) (other : B) : bool :=
  negb (DateObject_eq self other).

(** [DateObject.__add__] and [__sub__] on [datetime], the one class that
    has a [from_seconds]; [other] is any date component. *)
Definition datetime_add {B : Type} `{DateObject B}
           (self : datetime) (other : B) : result datetime :=
  let val := to_int self + to_int other in
  from_seconds val.

Definition datetime_sub {B : Type} `{DateObject B}
           (self : datetime) (other : B) : result datetime :=
  let val := to_int self - to_int other in
  from_seconds val.

(** [Hour.names] and [Hour.name]. *)
Definition Hour_names : list (string * string) :=
  [ ("0", "Black Hour"); ("6", "Soul's Hour");
    ("12", "Sun's Hour"); ("18", "Grey Hour") ]%string.

Definition Hour_name (self : Hour) : string :=
  match dict_get (DateObject_str self) Hour_names with
  | Some name => name
  | None => (DateObject_str self ++ _suffix (to_int self) ++ " hour")%string
  end.

(** [Day.span] and [Day.day_of_span]. *)
Definition Day_span (self : Day) : Z :=
  int_truediv (Day_day_of_season self - 1) Span_length_in_days + 1.

Definition Day_day_of_span (self : Day) : Z :=
  (Day_day_of_season self - 1) mod Span_length_in_days + 1.

Definition FestivalOfTheHunt_day_names : list string :=
  [ "Syf's Hunt"; "Mimir's Hunt"; "Woden's Hunt";
    "Thorus's Hunt"; "Freya's Hunt" ]%string.

(** [Day.name].  Without a season the lookup of [number] on [None] is an
    [AttributeError], and so is [day_names] on a season that is not a
    festival. *)
Definition Day_name (self : Day) : outcome string :=
  match Day_season self with
  | None => Throw AttributeError
  | Some season =>
      if number season =? 9 then
        match Season_class season with
        | FestivalOfTheHuntClass =>
            py_index FestivalOfTheHunt_day_names (Day_day_of_span self - 1)
        | SeasonClass => Throw AttributeError
        end
      else py_index Day_names (Day_day_of_span self - 1)
  end.

(** [int(self.season.year)] in [Day.as_date].  The attribute is a plain
    integer on a season that [datetime] built and the [Year] object on a
    season that a [Year] built for itself; [year_is_object] says which. *)
Definition int_of_season_year (year_is_object : bool) (season : Season) : Z :=
  if year_is_object
  then DateObject_as_seconds (Season_year season) Year_length_in_seconds
  else Season_year season.

(** [Day.as_date]; the arguments it does not pass take their defaults. *)
Definition Day_as_date (year_is_object : bool) (self : Day) : outcome datetime :=
  match Day_season self with
  | None => Throw MissingSeasonError
  | Some season =>
      lift (datetime_init 1 (int_of_season_year year_is_object season)
                          (to_int season) (to_int self) 0 0 0)
  end.

(** [Season.name], overridden by [FestivalOfTheHunt.name]. *)
Definition Season_name (self : Season) : outcome string :=
  match Season_class self with
  | SeasonClass => py_index Season_names (Season_season_of_year self - 1)
  | FestivalOfTheHuntClass => Return "Festival Of The Hunt"%string
  end.

(** [Season.__str__], overridden by [FestivalOfTheHunt.__str__]. *)
Definition Season_str (self : Season) : outcome string :=
  match Season_name self with
  | Throw e => Throw e
  | Return name =>
      match Season_class self with
      | SeasonClass => Return ("Season of the " ++ name)%string
      | FestivalOfTheHuntClass => Return ("the " ++ name)%string
      end
  end.

(** [Era.short] and [Era.long]. *)
Definition Era_short_names : list string := ["AE"; "OE"; "ME"]%string.

Definition Era_short (self : Era) : outcome string :=
  py_index Era_short_names (Era_era self - 1).

Definition Era_long (self : Era) : outcome string :=
  py_index Era_long_names (Era_era self - 1).

(** The module's table [eras]. *)
Definition eras : result (list Era) :=
  e1 <- Era_init 1 (Some 20000) ;;
  e2 <- Era_init 2 (Some 10000) ;;
  e3 <- Era_init 3 None ;;
  Ok [e1; e2; e3].

(** ** Auxiliary definitions for the proofs *)

(** The eight regular seasons a year builds for itself. *)
Definition regular_seasons (year : Z) : list Season :=
  map (fun i => mkSeason SeasonClass i year) (py_range 1 9).

(** The year object that [Year] builds. *)
Definition year_object (year : Z) (era : Era) : Year :=
  mkYear era year (regular_seasons year ++ [FestivalOfTheHunt_init year]).

(** The season object that the [datetime] constructor stores. *)
Definition season_object (season year : Z) : Season :=
  if season =? 9 then FestivalOfTheHunt_init year
  else mkSeason SeasonClass season year.

(** The date that the [datetime] constructor builds from arguments in
    range.  The [minute] argument does not occur in it. *)
Definition built (era year season day hour second : Z) : datetime :=
  let e := mkEra era None in
  let s := season_object season year in
  mkDatetime e (year_object year e) s (mkDay day (Some s))
             (mkHour hour) (mkMinute hour) second.

(** The seven constructor arguments that [from_seconds] derives. *)
Definition era_of (t : Z) : Z := t / Era_length_in_seconds + 1.
Definition year_of (t : Z) : Z :=
  (t mod Era_length_in_seconds) / Year_length_in_seconds + 1.
Definition season_of (t : Z) : Z :=
  (t mod Year_length_in_seconds) / Season_length_in_seconds + 1.
Definition day_of (t : Z) : Z :=
  ((t mod Year_length_in_seconds) mod Season_length_in_seconds)
    / Day_length_in_seconds + 1.
Definition hour_of (t : Z) : Z :=
  (t mod Day_length_in_seconds) / Hour_length_in_seconds.
Definition minute_of (t : Z) : Z :=
  (t mod Hour_length_in_seconds) / Minute_length_in_seconds.
Definition second_of (t : Z) : Z := t mod Minute_length_in_seconds.

(** The offset of the start of a day of a date of the four eras. *)
Definition day_start (era year season day : Z) : Z :=
  (era - 1) * Era_length_in_seconds + (year - 1) * Year_length_in_seconds
  + (season - 1) * Season_length_in_seconds + (day - 1) * Day_length_in_seconds.

Ltac decide_range :=
  match goal with
  | |- context [(?a <=? ?r) && (?r <? ?b)] =>
      let Hle := fresh in let Hlt := fresh in
      destruct (Z.leb_spec a r) as [Hle | Hle];
      destruct (Z.ltb_spec r b) as [Hlt | Hlt];
      cbn [andb]; try lia
  end.

Ltac lex_step :=
  match goal with
  | |- (?a <? ?b) || ((?a =? ?b) && _) = true =>
      let Hlt := fresh "Hlt" in
      let Heq := fresh "Heq" in
      destruct (Z.ltb_spec a b) as [Hlt | Hlt]; cbn [orb]; [reflexivity |];
      destruct (Z.eqb_spec a b) as [Heq | Heq]; cbn [andb]; [| exfalso; lia]
  end.

(** * Properties *)

(** ** The lengths *)

Lemma Minute_length_value : Minute_length_in_seconds = 60.
Proof. reflexivity. Qed.

Lemma Hour_length_value : Hour_length_in_seconds = 3600.
Proof. reflexivity. Qed.

Lemma Day_length_value : Day_length_in_seconds = 86400.
Proof. reflexivity. Qed.

Lemma Season_length_in_days_value : Season_length_in_days = 45.
Proof. reflexivity. Qed.

Lemma Season_length_value : Season_length_in_seconds = 3888000.
Proof. reflexivity. Qed.

Lemma Festival_length_value : FestivalOfTheHunt_length_in_seconds = 432000.
Proof. reflexivity. Qed.

Lemma Year_length_value : Year_length_in_seconds = 31536000.
Proof. reflexivity. Qed.

Lemma Era_length_value : Era_length_in_seconds = 315360000000.
Proof. reflexivity. Qed.

(** The year is eight regular seasons and the festival. *)
Lemma Year_length_split :
  Year_length_in_seconds =
  Year_length_in_seasons * Season_length_in_seconds
  + FestivalOfTheHunt_length_in_seconds.
Proof. reflexivity. Qed.

(** ** Range tests *)

Lemma out_of_range_false (x lo hi : Z) :
  lo <= x <= hi -> (x <? lo) || (x >? hi) = false.
Proof.
  intros [Hlo Hhi]. rewrite Z.gtb_ltb.
  apply orb_false_iff; split; apply Z.ltb_ge; assumption.
Qed.

Lemma out_of_range_true (x lo hi : Z) :
  x < lo \/ hi < x -> (x <? lo) || (x >? hi) = true.
Proof.
  intros H. rewrite Z.gtb_ltb. apply orb_true_iff.
  destruct H as [H | H]; [left | right]; apply Z.ltb_lt; assumption.
Qed.

Lemma out_of_range_iff (x lo hi : Z) :
  (x <? lo) || (x >? hi) = false <-> lo <= x <= hi.
Proof.
  split; [| apply out_of_range_false].
  rewrite Z.gtb_ltb, orb_false_iff, !Z.ltb_ge. lia.
Qed.

(** ** The constructors, case by case *)

Lemma Hour_init_ok (hour : Z) :
  0 <= hour <= 23 -> Hour_init hour = Ok (mkHour hour).
Proof. intros H. unfold Hour_init. now rewrite out_of_range_false. Qed.

Lemma Minute_init_ok (minute : Z) :
  0 <= minute <= 59 -> Minute_init minute = Ok (mkMinute minute).
Proof. intros H. unfold Minute_init. now rewrite out_of_range_false. Qed.

Lemma Day_init_ok (day : Z) (season : option Season) :
  1 <= day <= 45 -> Day_init day season = Ok (mkDay day season).
Proof.
  intros H. unfold Day_init. rewrite Season_length_in_days_value.
  now rewrite out_of_range_false.
Qed.

Lemma Day_init_raises (day : Z) (season : option Season) :
  day < 1 \/ 45 < day -> Day_init day season = Raise InvalidDayError.
Proof.
  intros H. unfold Day_init. rewrite Season_length_in_days_value.
  now rewrite out_of_range_true.
Qed.

Lemma Era_init_ok (era : Z) (end_ : option Z) :
  1 <= era <= 4 -> Era_init era end_ = Ok (mkEra era end_).
Proof.
  intros H. unfold Era_init.
  change (len Era_long_names + 1) with 4. now rewrite out_of_range_false.
Qed.

Lemma Era_init_raises (era : Z) (end_ : option Z) :
  era < 1 \/ 4 < era -> Era_init era end_ = Raise InvalidEraError.
Proof.
  intros H. unfold Era_init.
  change (len Era_long_names + 1) with 4. now rewrite out_of_range_true.
Qed.

Lemma Season_init_regular (season_of_year year : Z) :
  1 <= season_of_year <= 8 ->
  Season_init season_of_year year = Ok (mkSeason SeasonClass season_of_year year).
Proof.
  intros H. unfold Season_init.
  change (len Season_names) with 8. change (8 + 1) with 9.
  destruct (Z.eqb_spec season_of_year 9) as [E | _]; [lia |].
  now rewrite out_of_range_false.
Qed.

Lemma Season_init_festival (year : Z) : Season_init 9 year = Raise TypeError.
Proof. reflexivity. Qed.

Lemma Season_init_raises (season_of_year year : Z) :
  season_of_year < 1 \/ 9 < season_of_year ->
  Season_init season_of_year year = Raise InvalidSeasonError.
Proof.
  intros H. unfold Season_init.
  change (len Season_names) with 8. change (8 + 1) with 9.
  destruct (Z.eqb_spec season_of_year 9) as [E | _]; [lia |].
  rewrite out_of_range_true; [reflexivity | lia].
Qed.

Lemma Year_init_ok (year : Z) (era : Z) :
  1 <= year ->
  Year_init year (mkEra era None) =
  Ok (year_object year (mkEra era None)).
Proof.
  intros H. unfold Year_init.
  destruct (Z.ltb_spec year 1) as [Hlt | _]; [lia |].
  reflexivity.
Qed.

(** Whatever the era, a year that is built holds the eight regular
    seasons followed by the festival. *)
Lemma Year_init_inv (year : Z) (era : Era) (y : Year) :
  Year_init year era = Ok y ->
  1 <= year /\
  y = year_object year era.
Proof.
  unfold Year_init.
  destruct (Z.ltb_spec year 1) as [Hlt | Hge]; [discriminate |].
  destruct (truthy (Era_end era) && gt_end year (Era_end era)); [discriminate |].
  change (mapM (fun i => Season_init i year)
               (py_range 1 (Year_length_in_seasons + 1)))
    with (Ok (regular_seasons year)).
  cbn [bind]. intros H. injection H as <-. split; [lia | reflexivity].
Qed.

Lemma datetime_init_ok (era year season day hour minute second : Z) :
  1 <= era <= 4 -> 1 <= year -> 1 <= season <= 9 -> 1 <= day <= 45 ->
  0 <= hour <= 23 -> 0 <= second <= 59 ->
  datetime_init era year season day hour minute second =
  Ok (built era year season day hour second).
Proof.
  intros He Hy Hs Hd Hh Hsec. unfold datetime_init, built, season_object.
  rewrite Era_init_ok by assumption. cbn [bind].
  rewrite Year_init_ok by assumption. cbn [bind Year_year].
  change (Year_length_in_seasons + 1) with 9.
  destruct (Z.eqb_spec season 9) as [E | N];
    [| rewrite Season_init_regular by lia]; cbn [bind];
    rewrite Day_init_ok by assumption; cbn [bind];
    rewrite Hour_init_ok by assumption; cbn [bind];
    rewrite Minute_init_ok by lia; cbn [bind];
    rewrite out_of_range_false by assumption; reflexivity.
Qed.

(** Conversely, a date that is built came from arguments in range. *)
Lemma datetime_init_inv (era year season day hour minute second : Z) (d : datetime) :
  datetime_init era year season day hour minute second = Ok d ->
  (1 <= era <= 4 /\ 1 <= year /\ 1 <= season <= 9 /\ 1 <= day <= 45 /\
   0 <= hour <= 23 /\ 0 <= second <= 59) /\
  d = built era year season day hour second.
Proof.
  intros H.
  assert (R : 1 <= era <= 4 /\ 1 <= year /\ 1 <= season <= 9 /\ 1 <= day <= 45 /\
              0 <= hour <= 23 /\ 0 <= second <= 59).
  { revert H. unfold datetime_init.
    assert (Ce : 1 <= era <= 4 \/ (era < 1 \/ 4 < era)) by lia.
    destruct Ce as [Ce | Ce];
      [rewrite Era_init_ok by assumption
      | rewrite Era_init_raises by assumption; discriminate].
    cbn [bind].
    destruct (Year_init year (mkEra era None)) as [y | e] eqn:Ey;
      [| discriminate].
    apply Year_init_inv in Ey. destruct Ey as [Cy ->]. cbn [bind Year_year].
    change (Year_length_in_seasons + 1) with 9.
    assert (Cs : 1 <= season <= 9 \/ (season < 1 \/ 9 < season)) by lia.
    destruct Cs as [Cs | Cs];
      [| destruct (Z.eqb_spec season 9); [lia |];
         rewrite Season_init_raises by assumption; discriminate].
    assert (Cd : 1 <= day <= 45 \/ (day < 1 \/ 45 < day)) by lia.
    destruct Cd as [Cd | Cd];
      [| destruct (Z.eqb_spec season 9);
         [| rewrite Season_init_regular by lia]; cbn [bind];
         rewrite Day_init_raises by assumption; discriminate].
    destruct (Z.eqb_spec season 9);
      [| rewrite Season_init_regular by lia]; cbn [bind];
      rewrite Day_init_ok by assumption; cbn [bind];
      unfold Hour_init;
      (destruct ((hour <? 0) || (hour >? 23)) eqn:Ch; [discriminate |]);
      apply out_of_range_iff in Ch; cbn [bind];
      rewrite Minute_init_ok by lia; cbn [bind];
      (destruct ((second <? 0) || (second >? 59)) eqn:Csec; [discriminate |]);
      apply out_of_range_iff in Csec; intros _; repeat split; lia. }
  split; [exact R |].
  destruct R as (He & Hy & Hs & Hd & Hh & Hsec).
  rewrite (datetime_init_ok era year season day hour minute second) in H
    by assumption.
  now injection H as <-.
Qed.

(** ** Decomposition *)

(** One division step of [from_seconds] on a non-negative remainder. *)
Lemma int_truediv_step (a b : Z) :
  0 <= a -> 0 < b ->
  int_truediv a b = a / b /\ a - int_truediv a b * b = a mod b.
Proof.
  intros Ha Hb. unfold int_truediv.
  rewrite Z.quot_div_nonneg by assumption.
  split; [reflexivity |].
  pose proof (Z.div_mod a b ltac:(lia)). lia.
Qed.

Lemma from_seconds_args (t : Z) :
  0 <= t ->
  from_seconds t =
  datetime_init (era_of t) (year_of t) (season_of t) (day_of t)
                (hour_of t) (minute_of t) (second_of t).
Proof.
  intros Ht. unfold from_seconds, int_truediv.
  unfold era_of, year_of, season_of, day_of, hour_of, minute_of, second_of.
  rewrite Era_length_value, Year_length_value, Season_length_value,
    Day_length_value, Hour_length_value, Minute_length_value.
  cbv zeta.
  f_equal; Z.to_euclidean_division_equations; lia.
Qed.

(** The derived arguments are in the ranges the constructors accept, as
    long as the era is one of the four that [Era] lets through. *)
Lemma decomposition_in_range (t : Z) :
  0 <= t < 4 * Era_length_in_seconds ->
  1 <= era_of t <= 4 /\ 1 <= year_of t <= 10000 /\ 1 <= season_of t <= 9 /\
  1 <= day_of t <= 45 /\ 0 <= hour_of t <= 23 /\ 0 <= minute_of t <= 59 /\
  0 <= second_of t <= 59.
Proof.
  unfold era_of, year_of, season_of, day_of, hour_of, minute_of, second_of.
  rewrite Era_length_value, Year_length_value, Season_length_value,
    Day_length_value, Hour_length_value, Minute_length_value.
  intros Ht. repeat split; Z.to_euclidean_division_equations; lia.
Qed.

(** In the festival the derived day is one of its five. *)
Lemma decomposition_festival_day (t : Z) :
  0 <= t -> season_of t = 9 -> 1 <= day_of t <= 5.
Proof.
  unfold season_of, day_of.
  rewrite Year_length_value, Season_length_value, Day_length_value.
  intros Ht Hs. split; Z.to_euclidean_division_equations; lia.
Qed.

(** [from_seconds] returns a date on every offset below four era lengths,
    and the date is the one built from the derived arguments. *)
Lemma from_seconds_ok (t : Z) :
  0 <= t < 4 * Era_length_in_seconds ->
  from_seconds t =
  Ok (built (era_of t) (year_of t) (season_of t) (day_of t)
            (hour_of t) (second_of t)).
Proof.
  intros Ht. rewrite from_seconds_args by lia.
  destruct (decomposition_in_range t Ht) as (He & Hy & Hs & Hd & Hh & _ & Hsec).
  apply datetime_init_ok; lia.
Qed.

Lemma components_built (era year season day hour second : Z) :
  components (built era year season day hour second) =
  [era; year; season; day; hour; hour; second].
Proof.
  unfold built, components, season_object. cbn.
  destruct (Z.eqb_spec season 9) as [-> | _]; reflexivity.
Qed.

(** What [as_seconds] gives back after [from_seconds], in a regular
    season: the offset of the start of the day. *)
Lemma as_seconds_from_seconds_regular (t : Z) :
  0 <= t < 4 * Era_length_in_seconds ->
  season_of t <= 8 ->
  bind (from_seconds t) (fun d => Ok (as_seconds d)) =
  Ok (t - t mod Day_length_in_seconds).
Proof.
  intros Ht Hs. rewrite from_seconds_ok by assumption. cbn [bind]. f_equal.
  revert Hs.
  unfold built, season_object. cbn.
  unfold DateObject_as_seconds, Season_self_length_in_seconds.
  destruct (Z.eqb_spec (season_of t) 9) as [E | _]; [lia |].
  cbn [Season_class Season_season_of_year].
  unfold era_of, year_of, season_of, day_of.
  rewrite Era_length_value, Year_length_value, Season_length_value,
    Day_length_value.
  intros Hs. Z.to_euclidean_division_equations; lia.
Qed.

(** The derived arguments are the mixed-radix digits of the offset: they
    weigh up to it, and below each level the finer levels stay within one
    unit of that level. *)
Lemma decomposition_digits (t : Z) :
  0 <= t ->
  let lo_minute := second_of t in
  let lo_hour := minute_of t * Minute_length_in_seconds + lo_minute in
  let lo_day := hour_of t * Hour_length_in_seconds + lo_hour in
  let lo_season := (day_of t - 1) * Day_length_in_seconds + lo_day in
  let lo_year := (season_of t - 1) * Season_length_in_seconds + lo_season in
  let lo_era := (year_of t - 1) * Year_length_in_seconds + lo_year in
  t = (era_of t - 1) * Era_length_in_seconds + lo_era /\
  0 <= lo_minute < Minute_length_in_seconds /\
  0 <= lo_hour < Hour_length_in_seconds /\
  0 <= lo_day < Day_length_in_seconds /\
  0 <= lo_season < Season_length_in_seconds /\
  0 <= lo_year < Year_length_in_seconds /\
  0 <= lo_era < Era_length_in_seconds.
Proof.
  unfold era_of, year_of, season_of, day_of, hour_of, minute_of, second_of.
  rewrite Era_length_value, Year_length_value, Season_length_value,
    Day_length_value, Hour_length_value, Minute_length_value.
  intros Ht. cbv zeta.
  repeat split; Z.to_euclidean_division_equations; lia.
Qed.

(** The arguments that [from_seconds] derives, before the constructor
    stores them, are monotone in the offset. *)
Lemma decomposition_monotone (t1 t2 : Z) :
  0 <= t1 <= t2 ->
  lex_le [era_of t1; year_of t1; season_of t1; day_of t1;
          hour_of t1; minute_of t1; second_of t1]
         [era_of t2; year_of t2; season_of t2; day_of t2;
          hour_of t2; minute_of t2; second_of t2] = true.
Proof.
  intros Ht.
  pose proof (decomposition_digits t1 ltac:(lia)) as D1.
  pose proof (decomposition_digits t2 ltac:(lia)) as D2.
  cbv zeta in D1, D2. revert D1 D2.
  rewrite Era_length_value, Year_length_value, Season_length_value,
    Day_length_value, Hour_length_value, Minute_length_value.
  generalize (era_of t1) (year_of t1) (season_of t1) (day_of t1)
             (hour_of t1) (minute_of t1) (second_of t1)
             (era_of t2) (year_of t2) (season_of t2) (day_of t2)
             (hour_of t2) (minute_of t2) (second_of t2).
  intros e1 y1 s1 d1 h1 m1 c1 e2 y2 s2 d2 h2 m2 c2 D1 D2.
  cbn [lex_le].
  repeat lex_step. reflexivity.
Qed.

(** ** The year's sequence of seasons *)

Lemma Year_seasons_layout (year : Z) (era : Era) (y : Year) :
  Year_init year era = Ok y ->
  List.length (Year_seasons y) = 9%nat /\
  nth_error (Year_seasons y) 7 = Some (mkSeason SeasonClass 8 year) /\
  nth_error (Year_seasons y) 8 = Some (FestivalOfTheHunt_init year).
Proof.
  intros H. apply Year_init_inv in H. destruct H as [_ ->].
  cbn. repeat split.
Qed.

Lemma mapM_length {A B : Type} (f : A -> result B) (xs : list A) (ys : list B) :
  mapM f xs = Ok ys -> List.length ys = List.length xs.
Proof.
  revert ys. induction xs as [| x xs IH]; intros ys; cbn.
  - intros H. now injection H as <-.
  - destruct (f x) as [y | e]; cbn; [| discriminate].
    destruct (mapM f xs) as [ys' | e]; cbn; [| discriminate].
    intros H. injection H as <-. cbn. f_equal. now apply IH.
Qed.

(** [days] on a fresh cache lists one day per ordinal up to
    [Season.length_in_days], whatever the class of the season. *)
Lemma Season_days_fresh (self : Season) :
  exists days, Season_days self [] = Ok days /\ len days = Season_length_in_days.
Proof.
  destruct (Season_days self []) as [days | e] eqn:E.
  - exists days. split; [reflexivity |].
    unfold Season_days in E. apply mapM_length in E.
    unfold len. rewrite E. reflexivity.
  - exfalso. revert E. unfold Season_days.
    change (py_range 1 (Season_length_in_days + 1))
      with (map Z.of_nat (seq 1 45)).
    cbn. discriminate.
Qed.

(** A filled cache is returned as it is. *)
Lemma Season_days_cached (self : Season) (days : list Day) :
  days <> [] -> Season_days self days = Ok days.
Proof. destruct days; [congruence | reflexivity]. Qed.

(** ** The season step against the walk of the season table *)

Lemma season_table_value (year : Z) (era : Era) (y : Year) :
  Year_init year era = Ok y ->
  season_table y =
  [ (3888000, 0); (3888000, 3888000); (3888000, 7776000);
    (3888000, 11664000); (3888000, 15552000); (3888000, 19440000);
    (3888000, 23328000); (3888000, 27216000); (432000, 31104000) ].
Proof.
  intros H. apply Year_init_inv in H. destruct H as [_ ->]. reflexivity.
Qed.

Lemma walk_year_table (year : Z) (era : Era) (y : Year) (remaining q : Z) :
  Year_init year era = Ok y ->
  0 <= remaining < Year_length_in_seconds ->
  q * Season_length_in_seconds <= remaining < (q + 1) * Season_length_in_seconds ->
  walk_from 0 (season_table y) remaining =
  Some (q, q * Season_length_in_seconds).
Proof.
  intros Hy. rewrite (season_table_value _ _ _ Hy).
  rewrite Year_length_value, Season_length_value. intros Hr Hq.
  assert (Cq : q = 0 \/ q = 1 \/ q = 2 \/ q = 3 \/ q = 4 \/ q = 5 \/ q = 6
               \/ q = 7 \/ q = 8) by lia.
  cbn [walk_from].
  repeat (destruct Cq as [-> | Cq]); [.. | subst q];
    repeat decide_range; reflexivity.
Qed.

Lemma season_step_bounds (remaining : Z) :
  0 <= remaining < Year_length_in_seconds ->
  let q := fst (season_step remaining) in
  let d := snd (season_step remaining) in
  0 <= q <= 8 /\
  q * Season_length_in_seconds <= remaining < (q + 1) * Season_length_in_seconds /\
  0 <= d < 45 /\ (q = 8 -> d < 5).
Proof.
  unfold season_step, int_truediv. cbn [fst snd].
  rewrite Year_length_value, Season_length_value, Day_length_value.
  intros Hr. repeat split; Z.to_euclidean_division_equations; lia.
Qed.

Lemma season_step_agrees (year : Z) (era : Era) (y : Year) (remaining : Z) :
  Year_init year era = Ok y ->
  0 <= remaining < Year_length_in_seconds ->
  season_step_walk y remaining = Some (season_step remaining) /\
  day_in_range y (fst (season_step remaining)) (snd (season_step remaining)).
Proof.
  intros Hy Hr.
  destruct (season_step_bounds remaining Hr) as (Hq & Hb & Hd & Hf).
  split.
  - unfold season_step_walk.
    rewrite (walk_year_table year era y remaining _ Hy Hr Hb).
    reflexivity.
  - unfold day_in_range.
    apply Year_init_inv in Hy. destruct Hy as [_ ->]. cbn [Year_seasons].
    set (q := fst (season_step remaining)) in *.
    set (d := snd (season_step remaining)) in *.
    assert (Cq : q = 0 \/ q = 1 \/ q = 2 \/ q = 3 \/ q = 4 \/ q = 5 \/ q = 6
                 \/ q = 7 \/ q = 8) by lia.
    clearbody q d.
    repeat (destruct Cq as [-> | Cq]); [.. | subst q];
      (eexists; split; [reflexivity |];
       unfold Season_self_length_in_days, FestivalOfTheHunt_init;
       cbn [Season_class];
       rewrite ?Season_length_in_days_value;
       unfold FestivalOfTheHunt_length_in_days; lia).
Qed.

(** The offset of the festival is eight festival lengths, 40 days, and
    not the 360 days that precede it in the year. *)
Lemma festival_to_int (year : Z) :
  to_int (FestivalOfTheHunt_init year) = 3456000 /\
  Year_length_in_seasons * Season_length_in_seconds = 31104000.
Proof. split; reflexivity. Qed.

(** [as_seconds] of a date is the sum of four offsets: era, year, season
    and day. *)
Lemma datetime_as_seconds_sum (d : datetime) :
  as_seconds d =
  to_int (datetime_era d) + to_int (datetime_year d)
  + to_int (datetime_season d) + to_int (datetime_day d).
Proof. cbn. unfold datetime_as_seconds, py_sum. cbn. lia. Qed.

(** * The claims of the specification *)

(** C1.  The specification states that for every integer [t] with
    [0 <= t < 3 * Era.length_in_seconds], [from_seconds] followed by
    [as_seconds] yields [t] again.  The code does not do so: at [t = 1],
    which is in that range, [from_seconds] builds a date and its
    [as_seconds] is 0, since the hour, minute and second are left out of
    the sum. *)
Theorem from_seconds_as_seconds_at_1 :
  0 <= 1 < 3 * Era_length_in_seconds /\
  exists d, from_seconds 1 = Ok d /\
            components d = [1; 1; 1; 1; 0; 0; 1] /\
            as_seconds d = 0.
Proof.
  split; [rewrite Era_length_value; lia |].
  eexists. split; [vm_compute; reflexivity |]. split; reflexivity.
Qed.

(** C2.  The specification states that for every date [d] built by the
    seven-argument constructor, all seven components of
    [from_seconds (as_seconds d)] equal those of [d].  The code does not
    do so: the date built from (1, 1, 1, 1, 1, 0, 0) has hour 1, its
    [as_seconds] is 0, and [from_seconds] of that has hour 0. *)
Theorem as_seconds_from_seconds_at_hour_1 :
  exists d d',
    datetime_init 1 1 1 1 1 0 0 = Ok d /\
    from_seconds (as_seconds d) = Ok d' /\
    components d = [1; 1; 1; 1; 1; 1; 0] /\
    components d' = [1; 1; 1; 1; 0; 0; 0].
Proof.
  do 2 eexists. split; [vm_compute; reflexivity |].
  split; [vm_compute; reflexivity |]. split; reflexivity.
Qed.

(** C3.  The specification states that [as_seconds] of a built date is
    the sum of all seven per-level offsets.  The code sums four of them:
    for the date built from (1, 1, 1, 1, 1, 0, 0) the seven offsets add
    up to 3660 and [as_seconds] is 0. *)
Theorem as_seconds_at_hour_1_is_0 :
  exists d,
    datetime_init 1 1 1 1 1 0 0 = Ok d /\
    sum_of_offsets d = 3660 /\
    as_seconds d = 0.
Proof.
  eexists. split; [vm_compute; reflexivity |]. split; reflexivity.
Qed.

(** C4, as stated, fails on the code: day 6 of the festival is built. *)
Lemma Day_6_of_the_festival_is_built :
  Day_init 6 (Some (FestivalOfTheHunt_init 1)) =
  Ok (mkDay 6 (Some (FestivalOfTheHunt_init 1))).
Proof. reflexivity. Qed.

(** C4, amended.  [Day] construction is bounded by the fixed length of a
    regular season, 45 days, whichever season owns the day: a day is built
    exactly when its ordinal is between 1 and 45, and every other ordinal
    raises [InvalidDayError].  So day 45 of a regular season is built, day
    46 is refused, and day 5 of the festival is built. *)
Theorem Day_init_bounded_by_regular_length (n : Z) (season : option Season) :
  Season_length_in_days = 45 /\
  (Day_init n season = Ok (mkDay n season) <-> 1 <= n <= 45) /\
  (Day_init n season = Raise InvalidDayError <-> n < 1 \/ 45 < n).
Proof.
  split; [reflexivity |].
  assert (C : 1 <= n <= 45 \/ (n < 1 \/ 45 < n)) by lia.
  destruct C as [C | C].
  - rewrite Day_init_ok by assumption.
    split; split; intros H; try lia; try reflexivity; discriminate.
  - rewrite Day_init_raises by assumption.
    split; split; intros H; try lia; try reflexivity; try discriminate;
      assumption.
Qed.

(** C5.  The specification states that constructing a [Season] with
    ordinal 9 yields the festival.  [Season.__init__] returns the festival
    from the initialiser, so the construction raises [TypeError]; the
    [datetime] constructor tests for 9 itself and stores a festival. *)
Theorem Season_init_9_raises_TypeError :
  Season_init 9 1 = Raise TypeError /\
  exists d, datetime_init 1 1 9 1 0 0 0 = Ok d /\
            datetime_season d = FestivalOfTheHunt_init 1.
Proof.
  split; [reflexivity |].
  eexists. split; [vm_compute; reflexivity | reflexivity].
Qed.

(** C6, as stated, fails: no remainder within the year makes the division
    by the regular season length select another season, another day, or
    a day out of range, than the walk of the year's season table. *)
Lemma no_remainder_separates_division_from_walk :
  ~ (exists year era y remaining,
        Year_init year era = Ok y /\
        0 <= remaining < Year_length_in_seconds /\
        (season_step_walk y remaining <> Some (season_step remaining) \/
         ~ day_in_range y (fst (season_step remaining))
                          (snd (season_step remaining)))).
Proof.
  intros (year & era & y & remaining & Hy & Hr & Hdiff).
  destruct (season_step_agrees year era y remaining Hy Hr) as [Hw Hd].
  destruct Hdiff as [Hdiff | Hdiff]; contradiction.
Qed.

(** C6, amended.  The season step of [from_seconds] is a division by the
    regular season length, and on every remainder within the year it
    selects the same season and day as walking the year's nine (length,
    cumulative offset) pairs, with the day in range for that season:
    the one short season is the last of the year. *)
Theorem season_step_is_the_walk
        (year : Z) (era : Era) (y : Year) (remaining : Z) :
  Year_init year era = Ok y ->
  0 <= remaining < Year_length_in_seconds ->
  season_step_walk y remaining = Some (season_step remaining) /\
  day_in_range y (fst (season_step remaining)) (snd (season_step remaining)).
Proof. exact (season_step_agrees year era y remaining). Qed.

Lemma season_step_is_the_walk_witness :
  Year_init 1 (mkEra 1 None) = Ok (year_object 1 (mkEra 1 None)) /\
  0 <= 31104000 < Year_length_in_seconds /\
  season_step_walk (year_object 1 (mkEra 1 None)) 31104000
    = Some (season_step 31104000) /\
  day_in_range (year_object 1 (mkEra 1 None))
               (fst (season_step 31104000)) (snd (season_step 31104000)).
Proof.
  split; [reflexivity |].
  split; [rewrite Year_length_value; lia |].
  apply (season_step_is_the_walk 1 (mkEra 1 None) _ 31104000);
    [reflexivity | rewrite Year_length_value; lia].
Defined.

(** C7.  The specification states that decomposition is monotone in the
    calendar order.  The code is not: 59 < 60, yet [from_seconds 59] has
    components (1, 1, 1, 1, 0, 0, 59) and [from_seconds 60] has
    (1, 1, 1, 1, 0, 0, 0), because the minute stored is the hour. *)
Theorem from_seconds_59_60_out_of_order :
  exists d1 d2,
    from_seconds 59 = Ok d1 /\ from_seconds 60 = Ok d2 /\
    components d1 = [1; 1; 1; 1; 0; 0; 59] /\
    components d2 = [1; 1; 1; 1; 0; 0; 0] /\
    lex_le (components d1) (components d2) = false.
Proof.
  do 2 eexists. split; [vm_compute; reflexivity |].
  split; [vm_compute; reflexivity |]. repeat split.
Qed.

(** C8.  The specification states that the ninth season of every year is
    a festival of exactly 5 days that follows season 8.  In the first
    year of the first era the ninth season is the festival, it follows
    season 8 and its [length_in_days] is 5, but its [days] lists 45 days:
    the list is built up to [Season.length_in_days]. *)
Theorem festival_days_lists_45_days :
  exists y festival days,
    Year_init 1 (mkEra 1 (Some 20000)) = Ok y /\
    nth_error (Year_seasons y) 7 = Some (mkSeason SeasonClass 8 1) /\
    nth_error (Year_seasons y) 8 = Some festival /\
    Season_class festival = FestivalOfTheHuntClass /\
    Season_self_length_in_days festival = 5 /\
    Season_days festival [] = Ok days /\
    len days = 45.
Proof.
  do 3 eexists. split; [vm_compute; reflexivity |].
  split; [reflexivity |]. split; [reflexivity |].
  split; [reflexivity |]. split; [reflexivity |].
  split; [vm_compute; reflexivity | reflexivity].
Qed.

(** C9.  The specification states that an [Era] is built exactly when its
    ordinal is 1, 2 or 3.  The code also builds era 4: the upper test is
    against the number of era names plus one. *)
Theorem Era_init_4_is_accepted :
  len Era_long_names = 3 /\ Era_init 4 None = Ok (mkEra 4 None).
Proof. split; reflexivity. Qed.

(** C10.  The seven-argument constructor ignores its [minute] argument:
    whenever it builds a date, the minute stored is the [hour] argument,
    and any other [minute] argument builds the same date. *)
Theorem datetime_init_minute_is_hour
        (era year season day hour minute second : Z) (d : datetime) :
  datetime_init era year season day hour minute second = Ok d ->
  number (datetime_minute d) = hour /\
  forall minute', datetime_init era year season day hour minute' second = Ok d.
Proof.
  intros H. apply datetime_init_inv in H.
  destruct H as [(He & Hy & Hs & Hd & Hh & Hsec) ->].
  split; [reflexivity |].
  intros minute'. now apply datetime_init_ok.
Qed.

Lemma datetime_init_minute_is_hour_witness :
  datetime_init 1 1 1 1 5 30 0 = Ok (built 1 1 1 1 5 0) /\
  number (datetime_minute (built 1 1 1 1 5 0)) = 5 /\
  forall minute', datetime_init 1 1 1 1 5 minute' 0 = Ok (built 1 1 1 1 5 0).
Proof.
  split; [reflexivity |].
  apply (datetime_init_minute_is_hour 1 1 1 1 5 30 0). reflexivity.
Defined.

(** * Further properties of the code *)

(** ** Helper lemmas *)

Lemma lex_le_firstn (n : nat) (xs ys : list Z) :
  lex_le xs ys = true -> lex_le (firstn n xs) (firstn n ys) = true.
Proof.
  revert xs ys. induction n as [| n IH]; intros xs ys H; [reflexivity |].
  destruct xs as [| x xs]; [reflexivity |].
  destruct ys as [| y ys]; [discriminate |].
  cbn [firstn lex_le] in *.
  destruct (x <? y); [reflexivity |]. cbn [orb] in *.
  destruct (x =? y); [| discriminate]. cbn [andb] in *.
  now apply IH.
Qed.

Lemma as_seconds_built_regular (era year season day hour second : Z) :
  season <> 9 ->
  as_seconds (built era year season day hour second) =
  day_start era year season day.
Proof.
  intros Hs. unfold built, season_object, day_start.
  destruct (Z.eqb_spec season 9) as [E | _]; [contradiction |].
  cbn. unfold DateObject_as_seconds, Season_self_length_in_seconds.
  cbn [Season_class]. lia.
Qed.

Lemma as_seconds_built_festival (era year day hour second : Z) :
  as_seconds (built era year 9 day hour second) =
  day_start era year 9 day
  - 8 * (Season_length_in_seconds - FestivalOfTheHunt_length_in_seconds).
Proof.
  unfold built, season_object, day_start. cbn.
  unfold DateObject_as_seconds, Season_self_length_in_seconds.
  cbn [Season_class]. lia.
Qed.

Lemma decomposition_of_day_start (era year season day n : Z) :
  1 <= era <= 4 -> 1 <= year <= 10000 -> 1 <= season <= 9 ->
  1 <= day <= 45 -> (season = 9 -> day <= 5) ->
  0 <= n < Day_length_in_seconds ->
  let t := day_start era year season day + n in
  0 <= t < 4 * Era_length_in_seconds /\
  era_of t = era /\ year_of t = year /\ season_of t = season /\
  day_of t = day /\ hour_of t = n / Hour_length_in_seconds /\
  second_of t = n mod Minute_length_in_seconds.
Proof.
  unfold day_start, era_of, year_of, season_of, day_of, hour_of, second_of.
  rewrite Era_length_value, Year_length_value, Season_length_value,
    Day_length_value, Hour_length_value, Minute_length_value.
  intros He Hy Hs Hd Hf Hn. cbv zeta.
  repeat split; Z.to_euclidean_division_equations; lia.
Qed.

(** ** Decomposition and composition *)

(** X1.  On every offset of the four eras, from 0 up to four era lengths,
    [from_seconds] returns a date, and its components are the quotients
    of the offset by the era, year, regular season, day and hour lengths,
    each taken on the remainder of the one before; the minute component
    repeats the hour, and the second is the offset modulo 60. *)
Theorem from_seconds_on_four_eras (t : Z) :
  0 <= t < 4 * Era_length_in_seconds ->
  exists d,
    from_seconds t = Ok d /\
    components d =
    [ t / Era_length_in_seconds + 1;
      (t mod Era_length_in_seconds) / Year_length_in_seconds + 1;
      (t mod Year_length_in_seconds) / Season_length_in_seconds + 1;
      ((t mod Year_length_in_seconds) mod Season_length_in_seconds)
        / Day_length_in_seconds + 1;
      (t mod Day_length_in_seconds) / Hour_length_in_seconds;
      (t mod Day_length_in_seconds) / Hour_length_in_seconds;
      t mod Minute_length_in_seconds ].
Proof.
  intros Ht. eexists. split; [apply from_seconds_ok; assumption |].
  apply components_built.
Qed.

Lemma from_seconds_on_four_eras_witness :
  0 <= 100000 < 4 * Era_length_in_seconds /\
  exists d,
    from_seconds 100000 = Ok d /\
    components d =
    [ 100000 / Era_length_in_seconds + 1;
      (100000 mod Era_length_in_seconds) / Year_length_in_seconds + 1;
      (100000 mod Year_length_in_seconds) / Season_length_in_seconds + 1;
      ((100000 mod Year_length_in_seconds) mod Season_length_in_seconds)
        / Day_length_in_seconds + 1;
      (100000 mod Day_length_in_seconds) / Hour_length_in_seconds;
      (100000 mod Day_length_in_seconds) / Hour_length_in_seconds;
      100000 mod Minute_length_in_seconds ].
Proof.
  split; [rewrite Era_length_value; lia |].
  apply (from_seconds_on_four_eras 100000). rewrite Era_length_value; lia.
Defined.

(** X2.  From four era lengths on, [from_seconds] raises
    [InvalidEraError]: the era derived is the fifth or a later one. *)
Theorem from_seconds_past_the_fourth_era (t : Z) :
  4 * Era_length_in_seconds <= t < 2 ^ 52 ->
  from_seconds t = Raise InvalidEraError.
Proof.
  intros Ht. unfold from_seconds. cbv zeta. unfold datetime_init.
  rewrite Era_init_raises; [reflexivity |].
  right. unfold int_truediv. revert Ht. rewrite Era_length_value.
  intros Ht. Z.to_euclidean_division_equations; lia.
Qed.

Lemma from_seconds_past_the_fourth_era_witness :
  4 * Era_length_in_seconds <= 4 * Era_length_in_seconds < 2 ^ 52 /\
  from_seconds (4 * Era_length_in_seconds) = Raise InvalidEraError.
Proof.
  split; [rewrite Era_length_value; lia |].
  apply (from_seconds_past_the_fourth_era (4 * Era_length_in_seconds)).
  rewrite Era_length_value; lia.
Defined.

(** X3.  On a negative offset [from_seconds] returns a date exactly when
    the offset is a whole number of minutes less than an hour before 0,
    and the date is then the one of offset 0; every other negative offset
    raises. *)
Theorem from_seconds_negative (t : Z) :
  - 2 ^ 52 < t < 0 ->
  ((exists d, from_seconds t = Ok d) <-> (-3600 < t /\ t mod 60 = 0)) /\
  (forall d, from_seconds t = Ok d -> from_seconds 0 = Ok d).
Proof.
  intros Ht.
  assert (Inv : forall d, from_seconds t = Ok d ->
                  (-3600 < t /\ t mod 60 = 0) /\ d = built 1 1 1 1 0 0).
  { intros d H. unfold from_seconds in H. cbv zeta in H.
    apply datetime_init_inv in H. revert H. unfold int_truediv.
    rewrite Era_length_value, Year_length_value, Season_length_value,
      Day_length_value, Hour_length_value, Minute_length_value.
    intros [(He & Hy & Hs & Hd & Hh & Hsec) ->].
    assert (E1 : t ÷ 315360000000 = 0)
      by (Z.to_euclidean_division_equations; lia).
    rewrite E1 in *. rewrite Z.mul_0_l, Z.sub_0_r in *.
    assert (E2 : t ÷ 31536000 = 0)
      by (Z.to_euclidean_division_equations; lia).
    rewrite E2 in *. rewrite Z.mul_0_l, Z.sub_0_r in *.
    assert (E3 : t ÷ 3888000 = 0)
      by (Z.to_euclidean_division_equations; lia).
    rewrite E3 in *. rewrite Z.mul_0_l, Z.sub_0_r in *.
    assert (E4 : t ÷ 86400 = 0)
      by (Z.to_euclidean_division_equations; lia).
    rewrite E4 in *. rewrite Z.mul_0_l, Z.sub_0_r in *.
    assert (E5 : t ÷ 3600 = 0)
      by (Z.to_euclidean_division_equations; lia).
    rewrite E5 in *. rewrite Z.mul_0_l, Z.sub_0_r in *.
    assert (E6 : t - t ÷ 60 * 60 = 0)
      by (Z.to_euclidean_division_equations; lia).
    rewrite E6. cbn [Z.add].
    split; [| reflexivity].
    split; Z.to_euclidean_division_equations; lia. }
  split.
  - split.
    + intros [d H]. apply (Inv d H).
    + intros [Hlo Hmod]. exists (built 1 1 1 1 0 0).
      unfold from_seconds, int_truediv. cbv zeta.
      rewrite Era_length_value, Year_length_value, Season_length_value,
        Day_length_value, Hour_length_value, Minute_length_value.
      assert (E1 : t ÷ 315360000000 = 0)
        by (Z.to_euclidean_division_equations; lia).
      rewrite E1, Z.mul_0_l, Z.sub_0_r.
      assert (E2 : t ÷ 31536000 = 0)
        by (Z.to_euclidean_division_equations; lia).
      rewrite E2, Z.mul_0_l, Z.sub_0_r.
      assert (E3 : t ÷ 3888000 = 0)
        by (Z.to_euclidean_division_equations; lia).
      rewrite E3, Z.mul_0_l, Z.sub_0_r.
      assert (E4 : t ÷ 86400 = 0)
        by (Z.to_euclidean_division_equations; lia).
      rewrite E4, Z.mul_0_l, Z.sub_0_r.
      assert (E5 : t ÷ 3600 = 0)
        by (Z.to_euclidean_division_equations; lia).
      rewrite E5, Z.mul_0_l, Z.sub_0_r.
      assert (E6 : t - t ÷ 60 * 60 = 0)
        by (Z.to_euclidean_division_equations; lia).
      rewrite E6. cbn [Z.add].
      apply datetime_init_ok; lia.
  - intros d H. destruct (Inv d H) as [_ ->]. reflexivity.
Qed.

Lemma from_seconds_negative_witness :
  - 2 ^ 52 < -60 < 0 /\
  ((exists d, from_seconds (-60) = Ok d) <-> (-3600 < -60 /\ (-60) mod 60 = 0)) /\
  (forall d, from_seconds (-60) = Ok d -> from_seconds 0 = Ok d).
Proof.
  split; [lia |].
  apply (from_seconds_negative (-60)). lia.
Defined.

(** X4.  On an offset of the four eras, [as_seconds] of the date that
    [from_seconds] returns is the offset of the start of its day; in the
    festival it is 320 days less than that, the festival being weighed
    by its own length. *)
Theorem as_seconds_after_from_seconds (t : Z) :
  0 <= t < 4 * Era_length_in_seconds ->
  exists d,
    from_seconds t = Ok d /\
    as_seconds d =
    t - t mod Day_length_in_seconds
    - (if t mod Year_length_in_seconds
          <? Year_length_in_seasons * Season_length_in_seconds
       then 0
       else 320 * Day_length_in_seconds).
Proof.
  intros Ht. eexists. split; [apply from_seconds_ok; assumption |].
  change (Year_length_in_seasons * Season_length_in_seconds) with 31104000.
  destruct (Z.ltb_spec (t mod Year_length_in_seconds) 31104000) as [Hr | Hf].
  - rewrite as_seconds_built_regular.
    + revert Hr. unfold day_start, era_of, year_of, season_of, day_of.
      rewrite Era_length_value, Year_length_value, Season_length_value,
        Day_length_value.
      intros Hr. Z.to_euclidean_division_equations; lia.
    + revert Hr. unfold season_of.
      rewrite Year_length_value, Season_length_value.
      intros Hr. Z.to_euclidean_division_equations; lia.
  - assert (E : season_of t = 9).
    { revert Hf. unfold season_of.
      rewrite Year_length_value, Season_length_value.
      intros Hf. Z.to_euclidean_division_equations; lia. }
    rewrite E, as_seconds_built_festival.
    revert Hf. unfold day_start, era_of, year_of, day_of.
    rewrite Era_length_value, Year_length_value, Season_length_value,
      Day_length_value, Festival_length_value.
    intros Hf. Z.to_euclidean_division_equations; lia.
Qed.

Lemma as_seconds_after_from_seconds_witness :
  0 <= 31190461 < 4 * Era_length_in_seconds /\
  exists d,
    from_seconds 31190461 = Ok d /\
    as_seconds d =
    31190461 - 31190461 mod Day_length_in_seconds
    - (if 31190461 mod Year_length_in_seconds
          <? Year_length_in_seasons * Season_length_in_seconds
       then 0
       else 320 * Day_length_in_seconds).
Proof.
  split; [rewrite Era_length_value; lia |].
  apply (as_seconds_after_from_seconds 31190461).
  rewrite Era_length_value; lia.
Defined.

(** X5.  A date built for a year up to 10000 and a regular season
    decomposes, after [as_seconds], to the same era, year, season and day
    at hour 0, minute 0, second 0. *)
Theorem from_seconds_after_as_seconds
        (era year season day hour minute second : Z) (d : datetime) :
  datetime_init era year season day hour minute second = Ok d ->
  year <= 10000 -> season <= 8 ->
  exists d',
    from_seconds (as_seconds d) = Ok d' /\
    components d' = [era; year; season; day; 0; 0; 0] /\
    datetime_init era year season day 0 0 0 = Ok d'.
Proof.
  intros H Hy Hs. apply datetime_init_inv in H.
  destruct H as [(He & Hy1 & Hs1 & Hd & Hh & Hsec) ->].
  rewrite as_seconds_built_regular by lia.
  destruct (decomposition_of_day_start era year season day 0)
    as (Ht & E1 & E2 & E3 & E4 & E5 & E6);
    try lia; [rewrite Day_length_value; lia |].
  rewrite Z.add_0_r in *.
  exists (built era year season day 0 0).
  rewrite from_seconds_ok by assumption.
  rewrite E1, E2, E3, E4, E5, E6.
  change (0 / Hour_length_in_seconds) with 0.
  change (0 mod Minute_length_in_seconds) with 0.
  split; [reflexivity |]. split; [apply components_built |].
  apply datetime_init_ok; lia.
Qed.

Lemma from_seconds_after_as_seconds_witness :
  datetime_init 2 7 3 12 5 30 9 = Ok (built 2 7 3 12 5 9) /\
  7 <= 10000 /\ 3 <= 8 /\
  exists d',
    from_seconds (as_seconds (built 2 7 3 12 5 9)) = Ok d' /\
    components d' = [2; 7; 3; 12; 0; 0; 0] /\
    datetime_init 2 7 3 12 0 0 0 = Ok d'.
Proof.
  split; [reflexivity |]. split; [lia |]. split; [lia |].
  apply (from_seconds_after_as_seconds 2 7 3 12 5 30 9);
    [reflexivity | lia | lia].
Defined.

(** X6.  The era, year, season, day and hour that [from_seconds] returns
    never go back as the offset grows: on offsets of the four eras these
    five components are monotone in the calendar order. *)
Theorem from_seconds_monotone_up_to_the_hour (t1 t2 : Z) (d1 d2 : datetime) :
  0 <= t1 <= t2 -> t2 < 4 * Era_length_in_seconds ->
  from_seconds t1 = Ok d1 -> from_seconds t2 = Ok d2 ->
  lex_le (firstn 5 (components d1)) (firstn 5 (components d2)) = true.
Proof.
  intros H12 H2 E1 E2.
  rewrite from_seconds_ok in E1 by lia. injection E1 as <-.
  rewrite from_seconds_ok in E2 by lia. injection E2 as <-.
  rewrite !components_built.
  exact (lex_le_firstn 5 _ _ (decomposition_monotone t1 t2 H12)).
Qed.

Lemma from_seconds_monotone_up_to_the_hour_witness :
  0 <= 59 <= 60 /\ 60 < 4 * Era_length_in_seconds /\
  from_seconds 59 = Ok (built 1 1 1 1 0 59) /\
  from_seconds 60 = Ok (built 1 1 1 1 0 0) /\
  lex_le (firstn 5 (components (built 1 1 1 1 0 59)))
         (firstn 5 (components (built 1 1 1 1 0 0))) = true.
Proof.
  split; [lia |]. split; [rewrite Era_length_value; lia |].
  split; [reflexivity |]. split; [reflexivity |].
  apply (from_seconds_monotone_up_to_the_hour 59 60);
    [lia | rewrite Era_length_value; lia | reflexivity | reflexivity].
Defined.

(** X7.  The seven-argument constructor builds a date exactly when the era
    is 1 to 4, the year at least 1, the season 1 to 9, the day 1 to 45,
    the hour 0 to 23 and the second 0 to 59: the year has no upper bound
    (the era is built without an end) and the minute is not tested. *)
Theorem datetime_init_domain (era year season day hour minute second : Z) :
  (exists d, datetime_init era year season day hour minute second = Ok d) <->
  1 <= era <= 4 /\ 1 <= year /\ 1 <= season <= 9 /\ 1 <= day <= 45 /\
  0 <= hour <= 23 /\ 0 <= second <= 59.
Proof.
  split.
  - intros [d H]. apply datetime_init_inv in H. apply H.
  - intros (He & Hy & Hs & Hd & Hh & Hsec).
    eexists. apply datetime_init_ok; assumption.
Qed.

(** ** Arithmetic and comparison of dates *)

(** X8.  Adding a date component worth less than a day to a date built
    for a year up to 10000 and a regular season gives the same era, year,
    season and day, with the time of day of the component alone: the hour
    and second of the date itself are not carried over. *)
Theorem datetime_add_replaces_time_of_day
        {B : Type} `{DateObject B}
        (era year season day hour minute second : Z)
        (d : datetime) (other : B) :
  datetime_init era year season day hour minute second = Ok d ->
  year <= 10000 -> season <= 8 ->
  0 <= to_int other < Day_length_in_seconds ->
  exists d',
    datetime_add d other = Ok d' /\
    components d' =
    [ era; year; season; day;
      to_int other / Hour_length_in_seconds;
      to_int other / Hour_length_in_seconds;
      to_int other mod Minute_length_in_seconds ].
Proof.
  intros Hd Hy Hs Hn. apply datetime_init_inv in Hd.
  destruct Hd as [(He & Hy1 & Hs1 & Hd & Hh & Hsec) ->].
  unfold datetime_add. cbv zeta.
  change (to_int (built era year season day hour second))
    with (as_seconds (built era year season day hour second)).
  rewrite as_seconds_built_regular by lia.
  destruct (decomposition_of_day_start era year season day (to_int other))
    as (Ht & E1 & E2 & E3 & E4 & E5 & E6); try lia.
  eexists. split; [apply from_seconds_ok; assumption |].
  rewrite components_built, E1, E2, E3, E4, E5, E6. reflexivity.
Qed.

Lemma datetime_add_replaces_time_of_day_witness :
  datetime_init 1 1 2 3 7 0 30 = Ok (built 1 1 2 3 7 30) /\
  1 <= 10000 /\ 2 <= 8 /\
  0 <= to_int (mkHour 5) < Day_length_in_seconds /\
  exists d',
    datetime_add (built 1 1 2 3 7 30) (mkHour 5) = Ok d' /\
    components d' =
    [ 1; 1; 2; 3;
      to_int (mkHour 5) / Hour_length_in_seconds;
      to_int (mkHour 5) / Hour_length_in_seconds;
      to_int (mkHour 5) mod Minute_length_in_seconds ].
Proof.
  split; [reflexivity |]. split; [lia |]. split; [lia |].
  split; [vm_compute; split; [discriminate | reflexivity] |].
  apply (datetime_add_replaces_time_of_day 1 1 2 3 7 0 30);
    [reflexivity | lia | lia
    | vm_compute; split; [discriminate | reflexivity]].
Defined.

(** X9.  [==] between two dates built for years up to 10000 and regular
    seasons holds exactly when they have the same era, year, season and
    day: the hour, minute and second take no part in it. *)
Theorem datetime_eq_compares_days
        (e1 y1 s1 a1 h1 m1 c1 e2 y2 s2 a2 h2 m2 c2 : Z) (d1 d2 : datetime) :
  datetime_init e1 y1 s1 a1 h1 m1 c1 = Ok d1 ->
  datetime_init e2 y2 s2 a2 h2 m2 c2 = Ok d2 ->
  y1 <= 10000 -> y2 <= 10000 -> s1 <= 8 -> s2 <= 8 ->
  (DateObject_eq d1 d2 = true <-> e1 = e2 /\ y1 = y2 /\ s1 = s2 /\ a1 = a2).
Proof.
  intros H1 H2 Hy1 Hy2 Hs1 Hs2.
  apply datetime_init_inv in H1. destruct H1 as [R1 ->].
  apply datetime_init_inv in H2. destruct H2 as [R2 ->].
  unfold DateObject_eq.
  change (to_int (built e1 y1 s1 a1 h1 c1))
    with (as_seconds (built e1 y1 s1 a1 h1 c1)).
  change (to_int (built e2 y2 s2 a2 h2 c2))
    with (as_seconds (built e2 y2 s2 a2 h2 c2)).
  rewrite (as_seconds_built_regular e1 y1 s1 a1 h1 c1) by lia.
  rewrite (as_seconds_built_regular e2 y2 s2 a2 h2 c2) by lia.
  rewrite Z.eqb_eq. unfold day_start.
  rewrite Era_length_value, Year_length_value, Season_length_value,
    Day_length_value.
  split.
  - intros E.
    assert (Ee : e1 = e2) by lia. subst e2.
    assert (Ey : y1 = y2) by lia. subst y2.
    assert (Es : s1 = s2) by lia. subst s2.
    repeat split; lia.
  - intros (-> & -> & -> & ->). reflexivity.
Qed.

Lemma datetime_eq_compares_days_witness :
  datetime_init 1 2 3 4 5 6 7 = Ok (built 1 2 3 4 5 7) /\
  datetime_init 1 2 3 4 23 0 59 = Ok (built 1 2 3 4 23 59) /\
  2 <= 10000 /\ 2 <= 10000 /\ 3 <= 8 /\ 3 <= 8 /\
  (DateObject_eq (built 1 2 3 4 5 7) (built 1 2 3 4 23 59) = true
   <-> 1 = 1 /\ 2 = 2 /\ 3 = 3 /\ 4 = 4).
Proof.
  split; [reflexivity |]. split; [reflexivity |].
  split; [lia |]. split; [lia |]. split; [lia |]. split; [lia |].
  apply (datetime_eq_compares_days 1 2 3 4 5 6 7 1 2 3 4 23 0 59);
    [reflexivity | reflexivity | lia | lia | lia | lia].
Defined.

(** X10.  A date in the festival compares equal to the date of the same
    year whose season is the first and whose day is 40 later: day 1 of
    the festival is [==] to day 41 of the first season. *)
Theorem datetime_eq_festival_is_first_season
        (era year day h1 m1 c1 h2 m2 c2 : Z) (d1 d2 : datetime) :
  datetime_init era year 9 day h1 m1 c1 = Ok d1 ->
  datetime_init era year 1 (40 + day) h2 m2 c2 = Ok d2 ->
  DateObject_eq d1 d2 = true.
Proof.
  intros H1 H2.
  apply datetime_init_inv in H1. destruct H1 as [R1 ->].
  apply datetime_init_inv in H2. destruct H2 as [R2 ->].
  unfold DateObject_eq.
  change (to_int (built era year 9 day h1 c1))
    with (as_seconds (built era year 9 day h1 c1)).
  change (to_int (built era year 1 (40 + day) h2 c2))
    with (as_seconds (built era year 1 (40 + day) h2 c2)).
  rewrite (as_seconds_built_festival era year day h1 c1).
  rewrite (as_seconds_built_regular era year 1 (40 + day) h2 c2) by lia.
  rewrite Z.eqb_eq. unfold day_start.
  rewrite Era_length_value, Year_length_value, Season_length_value,
    Day_length_value, Festival_length_value.
  lia.
Qed.

Lemma datetime_eq_festival_is_first_season_witness :
  datetime_init 1 1 9 1 0 0 0 = Ok (built 1 1 9 1 0 0) /\
  datetime_init 1 1 1 (40 + 1) 0 0 0 = Ok (built 1 1 1 (40 + 1) 0 0) /\
  DateObject_eq (built 1 1 9 1 0 0) (built 1 1 1 (40 + 1) 0 0) = true.
Proof.
  split; [reflexivity |]. split; [reflexivity |].
  apply (datetime_eq_festival_is_first_season 1 1 1 0 0 0 0 0 0);
    reflexivity.
Defined.

(** X11.  The constructor accepts years past 10000, and such a date
    compares equal to the date 10000 years earlier in the next era: year
    10001 of one era is [==] to year 1 of the next. *)
Theorem datetime_eq_year_runs_into_next_era
        (era year season day h1 m1 c1 h2 m2 c2 : Z) (d1 d2 : datetime) :
  datetime_init era (year + 10000) season day h1 m1 c1 = Ok d1 ->
  datetime_init (era + 1) year season day h2 m2 c2 = Ok d2 ->
  DateObject_eq d1 d2 = true.
Proof.
  intros H1 H2.
  apply datetime_init_inv in H1. destruct H1 as [R1 ->].
  apply datetime_init_inv in H2. destruct H2 as [R2 ->].
  unfold DateObject_eq.
  change (to_int (built era (year + 10000) season day h1 c1))
    with (as_seconds (built era (year + 10000) season day h1 c1)).
  change (to_int (built (era + 1) year season day h2 c2))
    with (as_seconds (built (era + 1) year season day h2 c2)).
  rewrite Z.eqb_eq.
  destruct (Z.eq_dec season 9) as [-> | Hs].
  - rewrite (as_seconds_built_festival era (year + 10000) day h1 c1).
    rewrite (as_seconds_built_festival (era + 1) year day h2 c2).
    unfold day_start.
    rewrite Era_length_value, Year_length_value. lia.
  - rewrite (as_seconds_built_regular era (year + 10000) season day h1 c1)
      by assumption.
    rewrite (as_seconds_built_regular (era + 1) year season day h2 c2)
      by assumption.
    unfold day_start.
    rewrite Era_length_value, Year_length_value. lia.
Qed.

Lemma datetime_eq_year_runs_into_next_era_witness :
  datetime_init 1 (1 + 10000) 1 1 0 0 0 = Ok (built 1 (1 + 10000) 1 1 0 0) /\
  datetime_init (1 + 1) 1 1 1 0 0 0 = Ok (built (1 + 1) 1 1 1 0 0) /\
  DateObject_eq (built 1 (1 + 10000) 1 1 0 0) (built (1 + 1) 1 1 1 0 0) = true.
Proof.
  split; [reflexivity |]. split; [reflexivity |].
  apply (datetime_eq_year_runs_into_next_era 1 1 1 1 0 0 0 0 0 0);
    reflexivity.
Defined.

(** ** Years, seasons and days *)

Lemma Year_init_raise_is_InvalidYearError (year : Z) (era : Era) (e : exn) :
  Year_init year era = Raise e -> e = InvalidYearError.
Proof.
  unfold Year_init.
  destruct (year <? 1); [intros H; now injection H as <- |].
  destruct (truthy (Era_end era) && gt_end year (Era_end era));
    [intros H; now injection H as <- |].
  change (mapM (fun i => Season_init i year)
               (py_range 1 (Year_length_in_seasons + 1)))
    with (Ok (regular_seasons year)).
  cbn [bind]. discriminate.
Qed.

Lemma Year_init_succeeds_iff (year : Z) (era : Era) :
  (exists y, Year_init year era = Ok y) <->
  1 <= year /\
  match Era_end era with
  | Some n => n = 0 \/ year <= n
  | None => True
  end.
Proof.
  unfold Year_init.
  destruct (Z.ltb_spec year 1) as [Hlt | Hge].
  - split; [intros [y H]; discriminate | lia].
  - destruct (Era_end era) as [n |]; cbn [truthy gt_end].
    + rewrite Z.gtb_ltb.
      destruct (Z.eqb_spec n 0) as [-> | Hn]; cbn [negb andb].
      * split; [intros _; split; [lia | now left] |].
        intros _. eexists. reflexivity.
      * destruct (Z.ltb_spec n year) as [Hgt | Hle].
        -- split; [intros [y H]; discriminate | lia].
        -- split; [intros _; split; [lia | now right] |].
           intros _. eexists. reflexivity.
    + split; [intros _; split; [lia | exact I] |].
      intros _. eexists. reflexivity.
Qed.


(** X13.  The three eras of the module's table are built, and they bound
    their years at 20000, at 10000 and not at all. *)
Theorem eras_bound_their_years :
  exists e1 e2 e3,
    eras = Ok [e1; e2; e3] /\
    forall year,
      ((exists y, Year_init year e1 = Ok y) <-> 1 <= year <= 20000) /\
      ((exists y, Year_init year e2 = Ok y) <-> 1 <= year <= 10000) /\
      ((exists y, Year_init year e3 = Ok y) <-> 1 <= year).
Proof.
  do 3 eexists. split; [reflexivity |].
  intros year.
  rewrite !Year_init_succeeds_iff. cbn [Era_end].
  repeat split; try lia; intros; tauto || lia.
Qed.

(** X14.  Every year that is built holds nine seasons numbered 1 to 9 in
    order, each referring back to the year, and the lengths that the
    seasons themselves report add up to the length of the year, in days
    and in seconds. *)
Theorem Year_seasons_fill_the_year (year : Z) (era : Era) (y : Year) :
  Year_init year era = Ok y ->
  map Season_season_of_year (Year_seasons y) = py_range 1 10 /\
  Forall (fun s => Season_year s = year) (Year_seasons y) /\
  py_sum (map Season_self_length_in_days (Year_seasons y))
    = Year_length_in_days /\
  py_sum (map Season_self_length_in_seconds (Year_seasons y))
    = Year_length_in_seconds.
Proof.
  intros H. apply Year_init_inv in H. destruct H as [_ ->].
  split; [reflexivity |]. split; [| split; reflexivity].
  cbn. repeat constructor.
Qed.

Lemma Year_seasons_fill_the_year_witness :
  Year_init 7 (mkEra 2 (Some 10000)) = Ok (year_object 7 (mkEra 2 (Some 10000))) /\
  map Season_season_of_year (Year_seasons (year_object 7 (mkEra 2 (Some 10000))))
    = py_range 1 10 /\
  Forall (fun s => Season_year s = 7)
         (Year_seasons (year_object 7 (mkEra 2 (Some 10000)))) /\
  py_sum (map Season_self_length_in_days
              (Year_seasons (year_object 7 (mkEra 2 (Some 10000)))))
    = Year_length_in_days /\
  py_sum (map Season_self_length_in_seconds
              (Year_seasons (year_object 7 (mkEra 2 (Some 10000)))))
    = Year_length_in_seconds.
Proof.
  split; [reflexivity |].
  apply (Year_seasons_fill_the_year 7 (mkEra 2 (Some 10000))). reflexivity.
Defined.

(** X15.  [days] of any season, regular or festival, on the empty cache
    lists the days 1 to 45 in order, each referring back to the season,
    and asked again on the cache it has filled it returns the same
    list. *)
Theorem Season_days_lists_and_caches (self : Season) :
  exists days,
    Season_days self [] = Ok days /\
    map Day_day_of_season days = py_range 1 46 /\
    Forall (fun d => Day_season d = Some self) days /\
    Season_days self days = Ok days.
Proof.
  exists (map (fun i => mkDay i (Some self)) (py_range 1 46)).
  split; [reflexivity |]. split; [reflexivity |].
  split; [| reflexivity].
  apply Forall_map, Forall_forall. reflexivity.
Qed.

(** X16.  For every day that is built, the span is between 1 and 9, the
    day of the span between 1 and 5, and the two give back the day of
    the season: five days to a span, counted from 1. *)
Theorem Day_span_and_day_of_span (n : Z) (season : option Season) (d : Day) :
  Day_init n season = Ok d ->
  1 <= Day_span d <= 9 /\
  1 <= Day_day_of_span d <= 5 /\
  (Day_span d - 1) * Span_length_in_days + Day_day_of_span d = n.
Proof.
  intros H.
  assert (C : 1 <= n <= 45 \/ (n < 1 \/ 45 < n)) by lia.
  destruct C as [C | C];
    [rewrite Day_init_ok in H by assumption
    | rewrite Day_init_raises in H by assumption; discriminate].
  injection H as <-.
  unfold Day_span, Day_day_of_span, int_truediv. cbn [Day_day_of_season].
  change Span_length_in_days with 5.
  repeat split; Z.to_euclidean_division_equations; lia.
Qed.

Lemma Day_span_and_day_of_span_witness :
  Day_init 13 None = Ok (mkDay 13 None) /\
  1 <= Day_span (mkDay 13 None) <= 9 /\
  1 <= Day_day_of_span (mkDay 13 None) <= 5 /\
  (Day_span (mkDay 13 None) - 1) * Span_length_in_days
  + Day_day_of_span (mkDay 13 None) = 13.
Proof.
  split; [reflexivity |].
  apply (Day_span_and_day_of_span 13 None). reflexivity.
Defined.

(** X17.  The day of every date that is built has a name: the name at
    position (day - 1) modulo 5 of the festival's day names when the
    season is the ninth, and of the ordinary day names otherwise. *)
Theorem Day_name_of_a_date
        (era year season day hour minute second : Z) (d : datetime) :
  datetime_init era year season day hour minute second = Ok d ->
  Day_name (datetime_day d) =
  Return (nth (Z.to_nat ((day - 1) mod 5))
              (if season =? 9 then FestivalOfTheHunt_day_names else Day_names)
              EmptyString).
Proof.
  intros H. apply datetime_init_inv in H. destruct H as [_ ->].
  unfold built, season_object, Day_name, Day_day_of_span.
  cbn [datetime_day Day_season Day_day_of_season].
  change Span_length_in_days with 5.
  pose proof (Z.mod_pos_bound (day - 1) 5 ltac:(lia)) as Hm.
  remember ((day - 1) mod 5) as m eqn:Em. clear Em.
  assert (Cm : m = 0 \/ m = 1 \/ m = 2 \/ m = 3 \/ m = 4) by lia.
  destruct (Z.eqb_spec season 9) as [-> | Hs].
  - repeat (destruct Cm as [-> | Cm]); [.. | subst m]; reflexivity.
  - cbn [number Season_DateObject Season_season_of_year].
    destruct (Z.eqb_spec season 9) as [E | _]; [contradiction |].
    repeat (destruct Cm as [-> | Cm]); [.. | subst m]; reflexivity.
Qed.

Lemma Day_name_of_a_date_witness :
  datetime_init 1 1 9 2 0 0 0 = Ok (built 1 1 9 2 0 0) /\
  Day_name (datetime_day (built 1 1 9 2 0 0)) =
  Return (nth (Z.to_nat ((2 - 1) mod 5))
              (if 9 =? 9 then FestivalOfTheHunt_day_names else Day_names)
              EmptyString).
Proof.
  split; [reflexivity |].
  apply (Day_name_of_a_date 1 1 9 2 0 0 0). reflexivity.
Defined.

(** X18.  [as_date] never returns a date.  A day without a season raises
    [MissingSeasonError]; a day with a season passes the season's and its
    own offsets in seconds where the constructor expects ordinals, and
    the constructor raises [InvalidYearError] or [InvalidSeasonError]. *)
Theorem Day_as_date_never_returns (year_is_object : bool) (self : Day) :
  match Day_season self with
  | None => Day_as_date year_is_object self = Throw MissingSeasonError
  | Some _ =>
      Day_as_date year_is_object self = Throw (FromConstructor InvalidYearError)
      \/ Day_as_date year_is_object self
         = Throw (FromConstructor InvalidSeasonError)
  end.
Proof.
  unfold Day_as_date.
  destruct (Day_season self) as [season |]; [| reflexivity].
  unfold datetime_init. rewrite Era_init_ok by lia. cbn [bind].
  destruct (Year_init _ (mkEra 1 None)) as [y | e] eqn:Ey.
  - right. cbn [bind].
    apply Year_init_inv in Ey. destruct Ey as [_ ->].
    cbn [Year_year year_object].
    change (Year_length_in_seasons + 1) with 9.
    assert (Hs : to_int season < 1 \/ 9 < to_int season).
    { cbn. unfold Season_self_length_in_seconds.
      destruct (Season_class season);
        rewrite ?Season_length_value, ?Festival_length_value; lia. }
    destruct (Z.eqb_spec (to_int season) 9) as [E | _]; [lia |].
    rewrite Season_init_raises by assumption. reflexivity.
  - left. apply Year_init_raise_is_InvalidYearError in Ey. subst e.
    reflexivity.
Qed.

(** ** Names *)

(** X19.  The hours 0, 6, 12 and 18 carry their watch names, and every
    other hour that is built is named by its number followed by "th
    hour": the suffix is taken from the hour's offset in seconds, so the
    hours 1, 2 and 3 get "th" as well. *)
Theorem Hour_name_of_a_built_hour (hour : Z) (h : Hour) :
  Hour_init hour = Ok h ->
  Hour_name h =
  match hour with
  | 0 => "Black Hour"
  | 6 => "Soul's Hour"
  | 12 => "Sun's Hour"
  | 18 => "Grey Hour"
  | _ => str hour ++ "th hour"
  end%string.
Proof.
  unfold Hour_init.
  destruct ((hour <? 0) || (hour >? 23)) eqn:C; [discriminate |].
  apply out_of_range_iff in C. intros H. injection H as <-.
  assert (E : hour = Z.of_nat (Z.to_nat hour)) by lia.
  assert (B : (Z.to_nat hour < 24)%nat) by lia.
  rewrite E. generalize dependent (Z.to_nat hour). intros k _ B.
  do 24 (destruct k as [| k]; [reflexivity |]).
  lia.
Qed.

Lemma Hour_name_of_a_built_hour_witness :
  Hour_init 3 = Ok (mkHour 3) /\
  Hour_name (mkHour 3) =
  match 3 with
  | 0 => "Black Hour"
  | 6 => "Soul's Hour"
  | 12 => "Sun's Hour"
  | 18 => "Grey Hour"
  | _ => str 3 ++ "th hour"
  end%string.
Proof.
  split; [reflexivity |].
  apply (Hour_name_of_a_built_hour 3). reflexivity.
Defined.

(** X20.  An era that is built has its long and short names when its
    ordinal is 1, 2 or 3; the fourth era, which the constructor also
    builds, has neither, and asking for them is an [IndexError]. *)
Theorem Era_names_of_a_built_era (era : Z) (end_ : option Z) (e : Era) :
  Era_init era end_ = Ok e ->
  (era <= 3 /\
   Era_long e = Return (nth (Z.to_nat (era - 1)) Era_long_names EmptyString) /\
   Era_short e = Return (nth (Z.to_nat (era - 1)) Era_short_names EmptyString))
  \/
  (era = 4 /\ Era_long e = Throw IndexError /\ Era_short e = Throw IndexError).
Proof.
  intros H.
  assert (C : 1 <= era <= 4 \/ (era < 1 \/ 4 < era)) by lia.
  destruct C as [C | C];
    [rewrite Era_init_ok in H by assumption
    | rewrite Era_init_raises in H by assumption; discriminate].
  injection H as <-. unfold Era_long, Era_short. cbn [Era_era].
  assert (Ce : era = 1 \/ era = 2 \/ era = 3 \/ era = 4) by lia.
  destruct Ce as [-> | [-> | [-> | ->]]];
    [left | left | left | right]; repeat split; lia.
Qed.

Lemma Era_names_of_a_built_era_witness :
  Era_init 4 None = Ok (mkEra 4 None) /\
  ((4 <= 3 /\
    Era_long (mkEra 4 None)
      = Return (nth (Z.to_nat (4 - 1)) Era_long_names EmptyString) /\
    Era_short (mkEra 4 None)
      = Return (nth (Z.to_nat (4 - 1)) Era_short_names EmptyString))
   \/
   (4 = 4 /\ Era_long (mkEra 4 None) = Throw IndexError
    /\ Era_short (mkEra 4 None) = Throw IndexError)).
Proof.
  split; [reflexivity |].
  apply (Era_names_of_a_built_era 4 None). reflexivity.
Defined.

(** X21.  The seasons of every year that is built all have a name and a
    string form: Fox, Owl, Wolf, Eagle, Shark, Lion, Raven and Bear in
    that order, each printed as "Season of the ...", and then the
    Festival Of The Hunt, printed as "the Festival Of The Hunt". *)
Theorem Year_seasons_names (year : Z) (era : Era) (y : Year) :
  Year_init year era = Ok y ->
  map Season_name (Year_seasons y) =
  map Return (Season_names ++ ["Festival Of The Hunt"%string]) /\
  map Season_str (Year_seasons y) =
  map Return (map (append "Season of the ") Season_names
              ++ ["the Festival Of The Hunt"%string]).
Proof.
  intros H. apply Year_init_inv in H. destruct H as [_ ->].
  split; reflexivity.
Qed.

Lemma Year_seasons_names_witness :
  Year_init 1 (mkEra 3 None) = Ok (year_object 1 (mkEra 3 None)) /\
  map Season_name (Year_seasons (year_object 1 (mkEra 3 None))) =
  map Return (Season_names ++ ["Festival Of The Hunt"%string]) /\
  map Season_str (Year_seasons (year_object 1 (mkEra 3 None))) =
  map Return (map (append "Season of the ") Season_names
              ++ ["the Festival Of The Hunt"%string]).
Proof.
  split; [reflexivity |].
  apply (Year_seasons_names 1 (mkEra 3 None)). reflexivity.
Defined.

(** ** Subtraction *)

Lemma from_seconds_negative_inv (t : Z) (d : datetime) :
  t < 0 -> from_seconds t = Ok d -> -3600 < t.
Proof.
  intros Ht H. unfold from_seconds in H. cbv zeta in H.
  apply datetime_init_inv in H. revert H. unfold int_truediv.
  rewrite Era_length_value, Year_length_value, Season_length_value,
    Day_length_value, Hour_length_value, Minute_length_value.
  intros [(He & Hy & Hs & Hd & Hh & Hsec) _].
  assert (E1 : t ÷ 315360000000 = 0)
    by (Z.to_euclidean_division_equations; lia).
  rewrite E1 in *. rewrite Z.mul_0_l, Z.sub_0_r in *.
  assert (E2 : t ÷ 31536000 = 0)
    by (Z.to_euclidean_division_equations; lia).
  rewrite E2 in *. rewrite Z.mul_0_l, Z.sub_0_r in *.
  assert (E3 : t ÷ 3888000 = 0)
    by (Z.to_euclidean_division_equations; lia).
  rewrite E3 in *. rewrite Z.mul_0_l, Z.sub_0_r in *.
  assert (E4 : t ÷ 86400 = 0)
    by (Z.to_euclidean_division_equations; lia).
  rewrite E4 in *. rewrite Z.mul_0_l, Z.sub_0_r in *.
  Z.to_euclidean_division_equations; lia.
Qed.

Lemma as_seconds_built_whole_days (era year season day hour second : Z) :
  exists k, as_seconds (built era year season day hour second)
            = Day_length_in_seconds * k.
Proof.
  destruct (Z.eq_dec season 9) as [-> | Hs].
  - rewrite as_seconds_built_festival. unfold day_start.
    rewrite Era_length_value, Year_length_value, Season_length_value,
      Day_length_value, Festival_length_value.
    exists ((era - 1) * 3650000 + (year - 1) * 365 + 40 + (day - 1)). lia.
  - rewrite as_seconds_built_regular by assumption. unfold day_start.
    rewrite Era_length_value, Year_length_value, Season_length_value,
      Day_length_value.
    exists ((era - 1) * 3650000 + (year - 1) * 365 + (season - 1) * 45
            + (day - 1)).
    lia.
Qed.

(** X22.  Between dates built for years up to 10000, subtracting a date
    whose [as_seconds] is greater raises: the difference is a negative
    number of whole days, and [from_seconds] builds nothing from it. *)
Theorem datetime_sub_of_a_later_date_raises
        (e1 y1 s1 a1 h1 m1 c1 e2 y2 s2 a2 h2 m2 c2 : Z) (d1 d2 : datetime) :
  datetime_init e1 y1 s1 a1 h1 m1 c1 = Ok d1 ->
  datetime_init e2 y2 s2 a2 h2 m2 c2 = Ok d2 ->
  y1 <= 10000 -> y2 <= 10000 ->
  as_seconds d1 < as_seconds d2 ->
  exists e, datetime_sub d1 d2 = Raise e.
Proof.
  intros H1 H2 _ _ Hlt.
  apply datetime_init_inv in H1. destruct H1 as [_ ->].
  apply datetime_init_inv in H2. destruct H2 as [_ ->].
  unfold datetime_sub. cbv zeta.
  change (to_int (built e1 y1 s1 a1 h1 c1))
    with (as_seconds (built e1 y1 s1 a1 h1 c1)).
  change (to_int (built e2 y2 s2 a2 h2 c2))
    with (as_seconds (built e2 y2 s2 a2 h2 c2)).
  destruct (as_seconds_built_whole_days e1 y1 s1 a1 h1 c1) as [k1 K1].
  destruct (as_seconds_built_whole_days e2 y2 s2 a2 h2 c2) as [k2 K2].
  rewrite K1, K2 in *. revert Hlt. rewrite Day_length_value. intros Hlt.
  destruct (from_seconds (86400 * k1 - 86400 * k2)) as [d | e] eqn:E.
  - apply from_seconds_negative_inv in E; lia.
  - now exists e.
Qed.

Lemma datetime_sub_of_a_later_date_raises_witness :
  datetime_init 1 1 1 1 0 0 0 = Ok (built 1 1 1 1 0 0) /\
  datetime_init 1 1 1 2 0 0 0 = Ok (built 1 1 1 2 0 0) /\
  1 <= 10000 /\ 1 <= 10000 /\
  as_seconds (built 1 1 1 1 0 0) < as_seconds (built 1 1 1 2 0 0) /\
  exists e, datetime_sub (built 1 1 1 1 0 0) (built 1 1 1 2 0 0) = Raise e.
Proof.
  split; [reflexivity |]. split; [reflexivity |].
  split; [lia |]. split; [lia |]. split; [reflexivity |].
  apply (datetime_sub_of_a_later_date_raises 1 1 1 1 0 0 0 1 1 1 2 0 0 0);
    [reflexivity | reflexivity | lia | lia | reflexivity].
Defined.
